(** * Verification of the vfragoso/assignment3 transform, camera and shader code.

    Floating-point values ([float], [GLfloat]) are modelled as real numbers;
    Eigen's [Vector3f], [Vector4f] and [Matrix4f] as records and functions on
    indices.  [Eigen::Matrix4f::Random()] is an unspecified draw whose entries
    lie in [-1, 1]; the stubbed functions take that draw as an argument. *)

From Stdlib Require Import Reals Ratan Lra List String Ascii Bool Arith Lia.
Import ListNotations.
Open Scope R_scope.

(** ** Eigen data *)

Record Vector3f := V3 { vx : R; vy : R; vz : R }.

(** A 4-vector by its components 0..3. *)
Definition Vector4f := nat -> R.

(** A 4x4 matrix: [m i j] is row [i], column [j]. *)
Definition Matrix4f := nat -> nat -> R.

(** [v.homogeneous()]: appends a 1. *)
Definition homogeneous (v : Vector3f) : Vector4f :=
  fun i => match i with
           | 0%nat => vx v | 1%nat => vy v | 2%nat => vz v | 3%nat => 1
           | _ => 0 end.

(** Eigen's comma initializer [m << a00, a01, ..., a33], row by row. *)
Definition matrix4f_of_rows
  (a00 a01 a02 a03 a10 a11 a12 a13 a20 a21 a22 a23 a30 a31 a32 a33 : R)
  : Matrix4f :=
  fun i j =>
    match i, j with
    | 0, 0 => a00 | 0, 1 => a01 | 0, 2 => a02 | 0, 3 => a03
    | 1, 0 => a10 | 1, 1 => a11 | 1, 2 => a12 | 1, 3 => a13
    | 2, 0 => a20 | 2, 1 => a21 | 2, 2 => a22 | 2, 3 => a23
    | 3, 0 => a30 | 3, 1 => a31 | 3, 2 => a32 | 3, 3 => a33
    | _, _ => R0
    end%nat.

(** Matrix-vector product [x * y] ([MultiplyVectorAndMatrix]). *)
Definition MultiplyVectorAndMatrix (x : Matrix4f) (y : Vector4f) : Vector4f :=
  fun i => x i 0%nat * y 0%nat + x i 1%nat * y 1%nat
           + x i 2%nat * y 2%nat + x i 3%nat * y 3%nat.

(** Entries of an [Eigen::Matrix4f::Random()] draw lie in [-1, 1]. *)
Definition random_draw (m : Matrix4f) : Prop :=
  forall i j, -1 <= m i j <= 1.

(** ** transformations.cc *)

(** [ComputeTranslationMatrix]: the body is [return Eigen::Matrix4f::Random();]. *)
Definition ComputeTranslationMatrix (random : Matrix4f) (offset : Vector3f)
  : Matrix4f := random.

(** [ComputeRotationMatrix]: the body is [return Eigen::Matrix4f::Random();]. *)
Definition ComputeRotationMatrix (random : Matrix4f) (rotation_axis : Vector3f)
  (angle_in_radians : R) : Matrix4f := random.

(** Private members of [Model]; [vertices_] is the Eigen [MatrixXf] as a
    list of rows, [indices_] the [std::vector<GLuint>]. *)
Record Model := {
  orientation_ : Vector3f;
  position_ : Vector3f;
  vertices_ : list (list R);
  indices_ : list nat;
  vertex_buffer_object_id_ : nat;
  vertex_array_object_id_ : nat;
  element_buffer_object_id_ : nat
}.

(** [Model::ComputeModelMatrix]: the body is [return Eigen::Matrix4f::Random();]. *)
Definition ComputeModelMatrix (random : Matrix4f) (m : Model) : Matrix4f :=
  random.

(** [Model::set_orientation]: [orientation_ = orientation;]. *)
Definition set_orientation (m : Model) (orientation : Vector3f) : Model :=
  {| orientation_ := orientation; position_ := position_ m;
     vertices_ := vertices_ m; indices_ := indices_ m;
     vertex_buffer_object_id_ := vertex_buffer_object_id_ m;
     vertex_array_object_id_ := vertex_array_object_id_ m;
     element_buffer_object_id_ := element_buffer_object_id_ m |}.

(** [Model::set_position]: [position_ = position;]. *)
Definition set_position (m : Model) (position : Vector3f) : Model :=
  {| orientation_ := orientation_ m; position_ := position;
     vertices_ := vertices_ m; indices_ := indices_ m;
     vertex_buffer_object_id_ := vertex_buffer_object_id_ m;
     vertex_array_object_id_ := vertex_array_object_id_ m;
     element_buffer_object_id_ := element_buffer_object_id_ m |}.

(** ** camera_utils.cc *)

(** [kHalfPi = 0.5f * M_PI]. *)
Definition kHalfPi : R := 0.5 * PI.

(** [ComputeCotangent(angle) = tan(kHalfPi - angle)]. *)
Definition ComputeCotangent (angle : R) : R := tan (kHalfPi - angle).

Definition ComputePerspectiveProjectionMatrix
  (field_of_view aspect_ratio near far : R) : Matrix4f :=
  let y_scale := ComputeCotangent (0.5 * field_of_view) in
  let x_scale := y_scale / aspect_ratio in
  let planes_distance := far - near in
  let z_scale := - (near + far) / planes_distance in
  let homogeneous_scale := -2 * near * far / planes_distance in
  matrix4f_of_rows
    x_scale 0 0 0
    0 y_scale 0 0
    0 0 z_scale homogeneous_scale
    0 0 (-1) 0.

(** Cotangent as the spec names it: [cos / sin]. *)
Definition cot (x : R) : R := cos x / sin x.

(** ** assignment.cc *)

(** [ComputeDotProduct]: [x.dot(y)]. *)
Definition ComputeDotProduct (x y : Vector3f) : R :=
  vx x * vx y + vy x * vy y + vz x * vz y.

(** [ComputeCrossProduct]: [x.cross(y)], Eigen's component formula. *)
Definition ComputeCrossProduct (x y : Vector3f) : Vector3f :=
  V3 (vy x * vz y - vz x * vy y)
     (vz x * vx y - vx x * vz y)
     (vx x * vy y - vy x * vx y).

Definition UnitX : Vector3f := V3 1 0 0.
Definition UnitY : Vector3f := V3 0 1 0.
Definition UnitZ : Vector3f := V3 0 0 1.

(** Determinant of the 3x3 matrix with columns [a], [b], [c]. *)
Definition det3 (a b c : Vector3f) : R :=
  ComputeDotProduct a (ComputeCrossProduct b c).

(** ** shader_program.h / shader_program.cc *)

Open Scope nat_scope.

(** [enum ShaderType]. *)
Inductive ShaderType := VERTEX | FRAGMENT.

(** The OpenGL calls the shader code issues, with the names involved. *)
Inductive GLCall :=
| GlCreateShader (ty : ShaderType) (id : nat)
| GlShaderSource (id : nat) (src : string)
| GlCompileShader (id : nat)
| GlGetShaderiv (id : nat)
| GlGetShaderInfoLog (id : nat)
| GlCreateProgram (id : nat)
| GlAttachShader (program shader : nat)
| GlLinkProgram (program : nat)
| GlGetProgramiv (program : nat)
| GlGetProgramInfoLog (program : nat)
| GlDeleteShader (id : nat)
| GlUseProgram (program : nat)
| GlDeleteProgram (program : nat).

(** The OpenGL context: the last name handed out and the calls made so far. *)
Record GL := { gl_next : nat; gl_trace : list GLCall }.

Definition gl_init : GL := {| gl_next := 0; gl_trace := [] |}.

Definition emit (c : GLCall) (g : GL) : GL :=
  {| gl_next := gl_next g; gl_trace := gl_trace g ++ [c] |}.

(** [glCreateShader] / [glCreateProgram] return a fresh non-zero name. *)
Definition fresh_name (g : GL) : nat * GL :=
  (S (gl_next g), {| gl_next := S (gl_next g); gl_trace := gl_trace g |}).

(** What the driver and the file system answer: the compile and link status,
    the info logs, and the contents of a file ([None]: cannot be opened). *)
Record Driver := {
  compile_status : ShaderType -> string -> bool;
  link_status : nat -> nat -> bool;
  shader_info_log : nat -> string;
  program_info_log : nat -> string;
  read_file : string -> option string
}.

(** The members of [class ShaderProgram]. *)
Record ShaderProgram := {
  vertex_shader_src_ : string;
  fragment_shader_src_ : string;
  vertex_shader_ : nat;
  fragment_shader_ : nat;
  shader_program_id_ : nat;
  created_ : bool
}.

(** The default constructor. *)
Definition ShaderProgram_new : ShaderProgram :=
  {| vertex_shader_src_ := EmptyString; fragment_shader_src_ := EmptyString;
     vertex_shader_ := 0; fragment_shader_ := 0; shader_program_id_ := 0;
     created_ := false |}.

Definition set_vertex_shader_src_ sp s :=
  {| vertex_shader_src_ := s; fragment_shader_src_ := fragment_shader_src_ sp;
     vertex_shader_ := vertex_shader_ sp; fragment_shader_ := fragment_shader_ sp;
     shader_program_id_ := shader_program_id_ sp; created_ := created_ sp |}.
Definition set_fragment_shader_src_ sp s :=
  {| vertex_shader_src_ := vertex_shader_src_ sp; fragment_shader_src_ := s;
     vertex_shader_ := vertex_shader_ sp; fragment_shader_ := fragment_shader_ sp;
     shader_program_id_ := shader_program_id_ sp; created_ := created_ sp |}.
Definition set_vertex_shader_ sp n :=
  {| vertex_shader_src_ := vertex_shader_src_ sp;
     fragment_shader_src_ := fragment_shader_src_ sp;
     vertex_shader_ := n; fragment_shader_ := fragment_shader_ sp;
     shader_program_id_ := shader_program_id_ sp; created_ := created_ sp |}.
Definition set_fragment_shader_ sp n :=
  {| vertex_shader_src_ := vertex_shader_src_ sp;
     fragment_shader_src_ := fragment_shader_src_ sp;
     vertex_shader_ := vertex_shader_ sp; fragment_shader_ := n;
     shader_program_id_ := shader_program_id_ sp; created_ := created_ sp |}.
Definition set_shader_program_id_ sp n :=
  {| vertex_shader_src_ := vertex_shader_src_ sp;
     fragment_shader_src_ := fragment_shader_src_ sp;
     vertex_shader_ := vertex_shader_ sp; fragment_shader_ := fragment_shader_ sp;
     shader_program_id_ := n; created_ := created_ sp |}.
Definition set_created_ sp b :=
  {| vertex_shader_src_ := vertex_shader_src_ sp;
     fragment_shader_src_ := fragment_shader_src_ sp;
     vertex_shader_ := vertex_shader_ sp; fragment_shader_ := fragment_shader_ sp;
     shader_program_id_ := shader_program_id_ sp; created_ := b |}.

Section WithDriver.
Variable drv : Driver.

(** [CompileShader]. A [std::string*] is [option string]: [None] is
    [nullptr], [Some s] points to a string holding [s]. After the buffer is
    resized, [glGetShaderInfoLog] fills it with the driver's log. *)
Definition CompileShader (shader_src : string) (shader_type : ShaderType)
  (info_log : option string) (g : GL) : nat * option string * GL :=
  let '(shader_id, g1) := fresh_name g in
  let g2 := emit (GlGetShaderiv shader_id)
              (emit (GlCompileShader shader_id)
                 (emit (GlShaderSource shader_id shader_src)
                    (emit (GlCreateShader shader_type shader_id) g1))) in
  if negb (compile_status drv shader_type shader_src) then
    match info_log with
    | Some _ => (0, Some (shader_info_log drv shader_id),
                 emit (GlGetShaderInfoLog shader_id) g2)
    | None => (0, None, g2)
    end
  else (shader_id, info_log, g2).

(** [CreateShaderProgram]. *)
Definition CreateShaderProgram (vertex_shader fragment_shader : nat)
  (info_log : option string) (g : GL) : nat * option string * GL :=
  let '(shader_program, g1) := fresh_name g in
  let g2 := emit (GlGetProgramiv shader_program)
              (emit (GlLinkProgram shader_program)
                 (emit (GlAttachShader shader_program fragment_shader)
                    (emit (GlAttachShader shader_program vertex_shader)
                       (emit (GlCreateProgram shader_program) g1)))) in
  if negb (link_status drv vertex_shader fragment_shader) then
    match info_log with
    | Some _ => (0, Some (program_info_log drv shader_program),
                 emit (GlGetProgramInfoLog shader_program) g2)
    | None => (0, None, g2)
    end
  else (shader_program, info_log, g2).

(** [ReleaseShaderResources]. *)
Definition ReleaseShaderResources (vertex_shader fragment_shader : nat)
  (g : GL) : GL :=
  emit (GlDeleteShader fragment_shader) (emit (GlDeleteShader vertex_shader) g).

(** [LoadShaderFromFile], with a non-null sink. *)
Definition LoadShaderFromFile (filepath : string) : option string :=
  read_file drv filepath.

Definition LoadVertexShaderFromString (sp : ShaderProgram) (s : string)
  : bool * ShaderProgram := (true, set_vertex_shader_src_ sp s).

Definition LoadFragmentShaderFromString (sp : ShaderProgram) (s : string)
  : bool * ShaderProgram := (true, set_fragment_shader_src_ sp s).

Definition LoadVertexShaderFromFile (sp : ShaderProgram) (path : string)
  : bool * ShaderProgram :=
  match LoadShaderFromFile path with
  | Some contents => (true, set_vertex_shader_src_ sp contents)
  | None => (false, sp)
  end.

Definition LoadFragmentShaderFromFile (sp : ShaderProgram) (path : string)
  : bool * ShaderProgram :=
  match LoadShaderFromFile path with
  | Some contents => (true, set_fragment_shader_src_ sp contents)
  | None => (false, sp)
  end.

Definition BuildVertexShader (sp : ShaderProgram) (info_log : option string)
  (g : GL) : bool * ShaderProgram * option string * GL :=
  let '(id, log, g1) := CompileShader (vertex_shader_src_ sp) VERTEX info_log g in
  (negb (id =? 0), set_vertex_shader_ sp id, log, g1).

Definition BuildFragmentShader (sp : ShaderProgram) (info_log : option string)
  (g : GL) : bool * ShaderProgram * option string * GL :=
  let '(id, log, g1) :=
    CompileShader (fragment_shader_src_ sp) FRAGMENT info_log g in
  (negb (id =? 0), set_fragment_shader_ sp id, log, g1).

Definition LinkProgram (sp : ShaderProgram) (info_log : option string)
  (g : GL) : bool * ShaderProgram * option string * GL :=
  let '(id, log, g1) :=
    CreateShaderProgram (vertex_shader_ sp) (fragment_shader_ sp) info_log g in
  let g2 := ReleaseShaderResources (vertex_shader_ sp) (fragment_shader_ sp) g1 in
  (negb (id =? 0), set_shader_program_id_ sp id, log, g2).

(** [*error_info_log = info_log;] when [error_info_log] is not null. *)
Definition copy_log (error_info_log info_log : option string) : option string :=
  match error_info_log with
  | Some _ => info_log
  | None => None
  end.

(** [ShaderProgram::Create]: returns the result, the object, the string
    [error_info_log] points to, and the context. *)
Definition Create (sp : ShaderProgram) (error_info_log : option string) (g : GL)
  : bool * ShaderProgram * option string * GL :=
  if created_ sp then (true, sp, error_info_log, g) else
  let info_log := Some EmptyString in
  let '(ok1, sp1, info1, g1) := BuildVertexShader sp info_log g in
  if negb ok1 then (false, sp1, copy_log error_info_log info1, g1) else
  let '(ok2, sp2, info2, g2) := BuildFragmentShader sp1 info1 g1 in
  if negb ok2 then (false, sp2, copy_log error_info_log info2, g2) else
  let '(ok3, sp3, info3, g3) := LinkProgram sp2 info2 g2 in
  if negb ok3 then (false, sp3, copy_log error_info_log info3, g3) else
  (true, set_created_ sp3 true, error_info_log, g3).

End WithDriver.

(** [ShaderProgram::Use]. *)
Definition Use (sp : ShaderProgram) (g : GL) : bool * GL :=
  if created_ sp then (true, emit (GlUseProgram (shader_program_id_ sp)) g)
  else (false, g).

(** [ShaderProgram::~ShaderProgram]. *)
Definition Destroy (sp : ShaderProgram) (g : GL) : GL :=
  if created_ sp then emit (GlDeleteProgram (shader_program_id_ sp)) g else g.

(** The public operations a client can call on a [ShaderProgram]. *)
Inductive Op :=
| OpLoadVertexShaderFromString (s : string)
| OpLoadFragmentShaderFromString (s : string)
| OpLoadVertexShaderFromFile (path : string)
| OpLoadFragmentShaderFromFile (path : string)
| OpCreate (error_info_log : option string)
| OpUse.

Definition exec_op (drv : Driver) (sp : ShaderProgram) (g : GL) (op : Op)
  : ShaderProgram * GL :=
  match op with
  | OpLoadVertexShaderFromString s => (snd (LoadVertexShaderFromString sp s), g)
  | OpLoadFragmentShaderFromString s =>
      (snd (LoadFragmentShaderFromString sp s), g)
  | OpLoadVertexShaderFromFile p => (snd (LoadVertexShaderFromFile drv sp p), g)
  | OpLoadFragmentShaderFromFile p =>
      (snd (LoadFragmentShaderFromFile drv sp p), g)
  | OpCreate err => let '(_, sp', _, g') := Create drv sp err g in (sp', g')
  | OpUse => (sp, snd (Use sp g))
  end.

Fixpoint run (drv : Driver) (sp : ShaderProgram) (g : GL) (ops : list Op)
  : ShaderProgram * GL :=
  match ops with
  | [] => (sp, g)
  | op :: rest => let '(sp', g') := exec_op drv sp g op in run drv sp' g' rest
  end.

(** Objects reachable from the constructor by a sequence of public calls. *)
Definition reachable (drv : Driver) (sp : ShaderProgram) : Prop :=
  exists ops g0 g, run drv ShaderProgram_new g0 ops = (sp, g).

(** ** More of assignment.cc *)

Open Scope R_scope.

(** [Add3dPoints]: [x + y]. *)
Definition Add3dPoints (x y : Vector3f) : Vector3f :=
  V3 (vx x + vx y) (vy x + vy y) (vz x + vz y).

(** [Add4dPoints]: [x + y]. *)
Definition Add4dPoints (x y : Vector4f) : Vector4f := fun i => x i + y i.

(** [Multiply4x4Matrices]: [x * y]. *)
Definition Multiply4x4Matrices (x y : Matrix4f) : Matrix4f :=
  fun i j => x i 0%nat * y 0%nat j + x i 1%nat * y 1%nat j
             + x i 2%nat * y 2%nat j + x i 3%nat * y 3%nat j.

(** [Eigen::Matrix4f::Identity()]. *)
Definition Identity4f : Matrix4f :=
  matrix4f_of_rows 1 0 0 0  0 1 0 0  0 0 1 0  0 0 0 1.

(** [v.norm()]. *)
Definition norm (v : Vector3f) : R := sqrt (ComputeDotProduct v v).

(** [v.normalized()], as Eigen 3.3 writes it: [v / v.norm()] when the norm
    is positive, [v] itself otherwise.  The theorems below only use it on
    non-zero vectors, where every Eigen version divides by the norm. *)
Definition normalized (v : Vector3f) : Vector3f :=
  if Rlt_dec 0 (norm v) then V3 (vx v / norm v) (vy v / norm v) (vz v / norm v)
  else v.

(** [CalculateAngleBetweenTwoVectors]: [acos(x.normalized().dot(y.normalized()))].
    The [float] arithmetic is read in exact real arithmetic here.  The code's
    single-precision cosine can round just outside [-1, 1] (for instance
    [1.0000001] for [x = y = (1, 0, 4)]), where [acos] returns NaN; the
    properties stated about this function below are the ones that rounding
    leaves intact: exact symmetry, and [PI/2] on orthogonal inputs. *)
Definition CalculateAngleBetweenTwoVectors (x y : Vector3f) : R :=
  let cos_theta := ComputeDotProduct (normalized x) (normalized y) in
  acos cos_theta.

(** [-v]. *)
Definition opp_v3 (v : Vector3f) : Vector3f := V3 (- vx v) (- vy v) (- vz v).

Definition Zero3 : Vector3f := V3 0 0 0.

(** ** More of model.cc *)

(** [Model(orientation, position, vertices)]. *)
Definition Model_new (orientation position : Vector3f) (vertices : list (list R))
  : Model :=
  {| orientation_ := orientation; position_ := position; vertices_ := vertices;
     indices_ := []; vertex_buffer_object_id_ := 0;
     vertex_array_object_id_ := 0; element_buffer_object_id_ := 0 |}.

(** [Model(orientation, position, vertices, indices)]. *)
Definition Model_new_indexed (orientation position : Vector3f)
  (vertices : list (list R)) (indices : list nat) : Model :=
  {| orientation_ := orientation; position_ := position; vertices_ := vertices;
     indices_ := indices; vertex_buffer_object_id_ := 0;
     vertex_array_object_id_ := 0; element_buffer_object_id_ := 0 |}.

(** [Model::SetVerticesIntoGpu] and [Model::Draw]: empty bodies (TODO). *)
Definition SetVerticesIntoGpu (m : Model) : Model := m.
Definition Draw (m : Model) (projection view : Matrix4f) : Model := m.

(** The public mutators of [Model]; a write through [mutable_orientation()]
    or [mutable_position()] replaces the pointed member. *)
Inductive ModelOp :=
| MSetOrientation (v : Vector3f)
| MSetPosition (v : Vector3f)
| MWriteMutableOrientation (v : Vector3f)
| MWriteMutablePosition (v : Vector3f)
| MSetVerticesIntoGpu
| MDraw (projection view : Matrix4f).

Definition model_exec (m : Model) (op : ModelOp) : Model :=
  match op with
  | MSetOrientation v => set_orientation m v
  | MSetPosition v => set_position m v
  | MWriteMutableOrientation v => set_orientation m v
  | MWriteMutablePosition v => set_position m v
  | MSetVerticesIntoGpu => SetVerticesIntoGpu m
  | MDraw p v => Draw m p v
  end.

Definition model_run (m : Model) (ops : list ModelOp) : Model :=
  fold_left model_exec ops m.

(** ** main.cc *)

Module Main.
Open Scope string_scope.

Definition nl : string := String (ascii_of_nat 10) EmptyString.

(** The shader sources of the main program. *)
Definition vertex_shader_src : string :=
  String.concat EmptyString
    ["#version 330 core"; nl;
     "layout (location = 0) in vec3 position;"; nl;
     "uniform mat4 model;"; nl;
     "uniform mat4 view;"; nl;
     "uniform mat4 projection;"; nl;
     nl;
     "void main() {"; nl;
     "gl_Position = projection * view * model * vec4(position, 1.0f);"; nl;
     "}"; nl].

Definition fragment_shader_src : string :=
  String.concat EmptyString
    ["#version 330 core"; nl;
     "out vec4 color;"; nl;
     "void main() {"; nl;
     "color = vec4(1.0f, 0.5f, 0.2f, 1.0f);"; nl;
     "}"; nl].

(** [CreateShaderProgram(wvu::ShaderProgram* shader_program)] of the main
    program; [None] is [nullptr]. The printed messages are not modelled. *)
Definition CreateShaderProgram (drv : Driver) (shader_program : option ShaderProgram)
  (g : GL) : bool * option ShaderProgram * GL :=
  match shader_program with
  | None => (false, None, g)
  | Some sp =>
      let sp1 := snd (LoadVertexShaderFromString sp vertex_shader_src) in
      let sp2 := snd (LoadFragmentShaderFromString sp1 fragment_shader_src) in
      let error_info_log := Some EmptyString in
      let '(_, sp3, _, g1) := Create drv sp2 error_info_log g in
      if (shader_program_id_ sp3 =? 0)%nat then (false, Some sp3, g1)
      else (true, Some sp3, g1)
  end.
End Main.

(** ** Concrete inputs *)

(** A model at position [(3,0,0)] with orientation [(0,0,1)]. *)
Definition probe_model : Model :=
  {| orientation_ := V3 0 0 1; position_ := V3 3 0 0; vertices_ := [];
     indices_ := []; vertex_buffer_object_id_ := 0;
     vertex_array_object_id_ := 0; element_buffer_object_id_ := 0 |}.

(** A driver that rejects every shader and every link. *)
Definition failing_driver : Driver :=
  {| compile_status := fun _ _ => false; link_status := fun _ _ => false;
     shader_info_log := fun _ => "0:1(1): error: syntax error"%string;
     program_info_log := fun _ => "error: linking failed"%string;
     read_file := fun _ => None |}.

(** A driver that accepts everything. *)
Definition accepting_driver : Driver :=
  {| compile_status := fun _ _ => true; link_status := fun _ _ => true;
     shader_info_log := fun _ => EmptyString;
     program_info_log := fun _ => EmptyString;
     read_file := fun _ => None |}.

(** A driver that compiles every shader but rejects every link. *)
Definition link_failing_driver : Driver :=
  {| compile_status := fun _ _ => true; link_status := fun _ _ => false;
     shader_info_log := fun _ => EmptyString;
     program_info_log := fun _ => "error: linking failed"%string;
     read_file := fun _ => None |}.

(** The four calls [CompileShader] makes before it reads the status. *)
Definition compile_calls (ty : ShaderType) (id : nat) (src : string)
  : list GLCall :=
  [GlCreateShader ty id; GlShaderSource id src; GlCompileShader id;
   GlGetShaderiv id].

(** The five calls [CreateShaderProgram] makes before it reads the status. *)
Definition link_calls (program vertex_shader fragment_shader : nat)
  : list GLCall :=
  [GlCreateProgram program; GlAttachShader program vertex_shader;
   GlAttachShader program fragment_shader; GlLinkProgram program;
   GlGetProgramiv program].

(** * Theorems *)

Open Scope R_scope.

(** ** Transformations *)

(** Applying any matrix to the homogeneous origin [[0;0;0;1]] reads off its
    last column. *)
Lemma apply_to_origin (m : Matrix4f) (i : nat) :
  MultiplyVectorAndMatrix m (homogeneous (V3 0 0 0)) i = m i 3%nat.
Proof. unfold MultiplyVectorAndMatrix, homogeneous; simpl; ring. Qed.

(** Claim C7 (code_bug): [ComputeTranslationMatrix] returns its random draw,
    so with offset [(3,0,0)] the translated origin has an x coordinate in
    [-1, 1], not [0 + 3]: the result is not [T] with [T [p;1] = [p+offset;1]]. *)
Lemma ComputeTranslationMatrix_misses_offset (random : Matrix4f)
  (Hrandom : random_draw random) :
  MultiplyVectorAndMatrix (ComputeTranslationMatrix random (V3 3 0 0))
    (homogeneous (V3 0 0 0)) 0%nat <> 0 + 3.
Proof.
  rewrite apply_to_origin. unfold ComputeTranslationMatrix.
  destruct (Hrandom 0%nat 3%nat). lra.
Qed.

Lemma ComputeTranslationMatrix_misses_offset_witness :
  random_draw (fun _ _ => 0) /\
  MultiplyVectorAndMatrix (ComputeTranslationMatrix (fun _ _ => 0) (V3 3 0 0))
    (homogeneous (V3 0 0 0)) 0%nat <> 0 + 3.
Proof.
  split.
  - intros i j; lra.
  - apply ComputeTranslationMatrix_misses_offset. intros i j; lra.
Defined.

(** Claim C1 (code_bug): [Model::ComputeModelMatrix] returns its random
    draw, so for the local vertex [v = 0] of [probe_model] the x coordinate
    of [M [v;1]] lies in [-1, 1], while [R v + t] has x coordinate
    [0 + 3] whatever the rotation [R] is. *)
Lemma ComputeModelMatrix_misses_position (random : Matrix4f)
  (Hrandom : random_draw random) :
  MultiplyVectorAndMatrix (ComputeModelMatrix random probe_model)
    (homogeneous (V3 0 0 0)) 0%nat <> 0 + vx (position_ probe_model).
Proof.
  rewrite apply_to_origin. unfold ComputeModelMatrix; simpl.
  destruct (Hrandom 0%nat 3%nat). lra.
Qed.

Lemma ComputeModelMatrix_misses_position_witness :
  random_draw (fun _ _ => 0) /\
  MultiplyVectorAndMatrix (ComputeModelMatrix (fun _ _ => 0) probe_model)
    (homogeneous (V3 0 0 0)) 0%nat <> 0 + vx (position_ probe_model).
Proof.
  split.
  - intros i j; lra.
  - apply ComputeModelMatrix_misses_position. intros i j; lra.
Defined.

(** Claim C10: [set_position] replaces only the position, [set_orientation]
    only the orientation; every other member keeps its value. *)
Theorem setters_frame (m : Model) (v : Vector3f) :
  position_ (set_position m v) = v /\
  orientation_ (set_position m v) = orientation_ m /\
  vertices_ (set_position m v) = vertices_ m /\
  indices_ (set_position m v) = indices_ m /\
  vertex_buffer_object_id_ (set_position m v) = vertex_buffer_object_id_ m /\
  vertex_array_object_id_ (set_position m v) = vertex_array_object_id_ m /\
  element_buffer_object_id_ (set_position m v) = element_buffer_object_id_ m /\
  orientation_ (set_orientation m v) = v /\
  position_ (set_orientation m v) = position_ m /\
  vertices_ (set_orientation m v) = vertices_ m /\
  indices_ (set_orientation m v) = indices_ m /\
  vertex_buffer_object_id_ (set_orientation m v) = vertex_buffer_object_id_ m /\
  vertex_array_object_id_ (set_orientation m v) = vertex_array_object_id_ m /\
  element_buffer_object_id_ (set_orientation m v) = element_buffer_object_id_ m.
Proof. destruct m; repeat split. Qed.

(** ** Camera *)

(** [tan(pi/2 - a)] is the cotangent of [a]. *)
Lemma ComputeCotangent_half (fov : R) :
  ComputeCotangent (0.5 * fov) = cot (fov / 2).
Proof.
  unfold ComputeCotangent, kHalfPi, cot, tan.
  replace (0.5 * PI - 0.5 * fov) with (PI / 2 - fov / 2) by lra.
  now rewrite sin_shift, cos_shift.
Qed.

(** Claim C6: the entries of [ComputePerspectiveProjectionMatrix]. The
    equalities hold for every input; the preconditions of the claim are
    not needed. *)
Theorem perspective_projection_entries (fov aspect near far : R) :
  let P := ComputePerspectiveProjectionMatrix fov aspect near far in
  P 0%nat 0%nat = cot (fov / 2) / aspect /\
  P 1%nat 1%nat = cot (fov / 2) /\
  P 2%nat 2%nat = - (near + far) / (far - near) /\
  P 2%nat 3%nat = -2 * near * far / (far - near) /\
  (P 3%nat 0%nat, P 3%nat 1%nat, P 3%nat 2%nat, P 3%nat 3%nat) = (0, 0, -1, 0) /\
  Forall (fun ij => P (fst ij) (snd ij) = 0)
    [(0,1); (0,2); (0,3); (1,0); (1,2); (1,3); (2,0); (2,1)]%nat.
Proof.
  cbv zeta. unfold ComputePerspectiveProjectionMatrix; cbv zeta; simpl.
  rewrite ComputeCotangent_half.
  repeat split; repeat constructor.
Qed.

(** ** Linear algebra *)

(** Claim C8: the cross product is orthogonal to both inputs, the frame
    [(x, y, x × y)] has determinant [|x × y|^2 >= 0] (right-handed), and
    [(unitX × unitY) · unitZ = 1]. *)
Theorem cross_product_orthogonal_right_handed (x y : Vector3f) :
  let c := ComputeCrossProduct x y in
  ComputeDotProduct c x = 0 /\
  ComputeDotProduct c y = 0 /\
  det3 x y c = ComputeDotProduct c c /\
  0 <= det3 x y c /\
  ComputeDotProduct (ComputeCrossProduct UnitX UnitY) UnitZ = 1.
Proof.
  cbv zeta. destruct x as [x1 x2 x3], y as [y1 y2 y3].
  unfold det3, ComputeDotProduct, ComputeCrossProduct, UnitX, UnitY, UnitZ;
    simpl.
  repeat split; try ring.
  match goal with |- 0 <= ?e => replace e with
    ((x2 * y3 - x3 * y2) * (x2 * y3 - x3 * y2)
     + (x3 * y1 - x1 * y3) * (x3 * y1 - x1 * y3)
     + (x1 * y2 - x2 * y1) * (x1 * y2 - x2 * y1)) by ring end.
  apply Rplus_le_le_0_compat; [apply Rplus_le_le_0_compat|];
    apply Rle_0_sqr.
Qed.

(** ** Shader program *)

Open Scope nat_scope.

(** Unfolds [Create] down to the OpenGL calls. *)
Ltac unfold_create :=
  unfold Create, BuildVertexShader, BuildFragmentShader, LinkProgram,
    CompileShader, CreateShaderProgram, ReleaseShaderResources, fresh_name,
    copy_log, emit in *; simpl in *.

(** Splits on the driver's answers for the stages of [Create]. *)
Ltac split_stages drv :=
  repeat match goal with
  | |- context [compile_status drv ?t ?s] =>
      destruct (compile_status drv t s) eqn:?; simpl in *
  | |- context [link_status drv ?a ?b] =>
      destruct (link_status drv a b) eqn:?; simpl in *
  end.

(** The class invariant: [created_] exactly when the program name is set. *)
Definition inv (sp : ShaderProgram) : Prop :=
  created_ sp = true <-> shader_program_id_ sp <> 0.

Lemma inv_new : inv ShaderProgram_new.
Proof. unfold inv; simpl; split; [discriminate | lia]. Qed.

Lemma Create_inv (drv : Driver) (sp : ShaderProgram) err g :
  inv sp -> inv (snd (fst (fst (Create drv sp err g)))).
Proof.
  intros Hinv. unfold Create.
  destruct (created_ sp) eqn:Hc; [exact Hinv|].
  destruct sp as [vs fs v f pid c]; unfold inv in *; simpl in *; subst c.
  unfold_create. split_stages drv; try exact Hinv; split; try discriminate; try lia; auto.
Qed.

Lemma exec_op_inv (drv : Driver) sp g op :
  inv sp -> inv (fst (exec_op drv sp g op)).
Proof.
  intros Hinv. destruct op; simpl.
  - exact Hinv.
  - exact Hinv.
  - unfold LoadVertexShaderFromFile; destruct (LoadShaderFromFile drv path);
      exact Hinv.
  - unfold LoadFragmentShaderFromFile; destruct (LoadShaderFromFile drv path);
      exact Hinv.
  - pose proof (Create_inv drv sp error_info_log g Hinv) as H.
    destruct (Create drv sp error_info_log g) as [[[b sp'] e'] g']; exact H.
  - exact Hinv.
Qed.

Lemma run_inv (drv : Driver) ops : forall sp g,
  inv sp -> inv (fst (run drv sp g ops)).
Proof.
  induction ops as [|op ops IH]; intros sp g Hinv; simpl; [exact Hinv|].
  pose proof (exec_op_inv drv sp g op Hinv) as H.
  destruct (exec_op drv sp g op) as [sp' g']. apply IH; exact H.
Qed.

Lemma reachable_inv (drv : Driver) sp : reachable drv sp -> inv sp.
Proof.
  intros (ops & g0 & g & Hrun).
  pose proof (run_inv drv ops ShaderProgram_new g0 inv_new) as H.
  rewrite Hrun in H; exact H.
Qed.

(** Claim C9: along every sequence of public calls from the constructor,
    [created_] holds exactly when [shader_program_id_] is non-zero, and the
    destructor calls [glDeleteProgram] exactly when that name is non-zero. *)
Theorem created_iff_program_id (drv : Driver) (ops : list Op) (g0 g : GL) :
  let sp := fst (run drv ShaderProgram_new g0 ops) in
  (created_ sp = true <-> shader_program_id_ sp <> 0) /\
  (shader_program_id_ sp <> 0 ->
     Destroy sp g = emit (GlDeleteProgram (shader_program_id_ sp)) g) /\
  (shader_program_id_ sp = 0 -> Destroy sp g = g).
Proof.
  cbv zeta.
  pose proof (run_inv drv ops ShaderProgram_new g0 inv_new) as H.
  unfold inv in H. unfold Destroy.
  destruct (created_ (fst (run drv ShaderProgram_new g0 ops))) eqn:Hc;
    repeat split; intros; try reflexivity; try tauto;
    match goal with Hn : _ <> 0 |- _ => discriminate (proj2 H Hn) end.
Qed.

(** Claim C4: once [created_] is set, [Create] returns true and changes
    neither the object, the caller's string nor the OpenGL context. *)
Theorem Create_idempotent (drv : Driver) (sp : ShaderProgram) err g
  (Hcreated : created_ sp = true) :
  Create drv sp err g = (true, sp, err, g).
Proof. unfold Create; rewrite Hcreated; reflexivity. Qed.

Lemma Create_idempotent_witness :
  created_ (set_created_ ShaderProgram_new true) = true /\
  Create failing_driver (set_created_ ShaderProgram_new true) None gl_init
  = (true, set_created_ ShaderProgram_new true, None, gl_init).
Proof.
  split; [reflexivity|].
  apply Create_idempotent; reflexivity.
Defined.

(** Claim C5: without [created_], [Use] returns false and makes no OpenGL
    call; with [created_], it returns true. *)
Theorem Use_spec (sp : ShaderProgram) (g : GL) :
  (created_ sp = false -> Use sp g = (false, g)) /\
  (created_ sp = true -> fst (Use sp g) = true).
Proof. unfold Use; split; intros H; rewrite H; reflexivity. Qed.

Lemma Use_spec_witness :
  Use ShaderProgram_new gl_init = (false, gl_init) /\
  fst (Use (set_created_ ShaderProgram_new true) gl_init) = true.
Proof.
  split.
  - apply (proj1 (Use_spec ShaderProgram_new gl_init)); reflexivity.
  - apply (proj2 (Use_spec (set_created_ ShaderProgram_new true) gl_init));
      reflexivity.
Defined.

(** Claim C3: on an object whose [Create] has never succeeded, if one of the
    three stages fails (the vertex shader does not compile, the fragment
    shader does not compile, or the program does not link), then [Create]
    returns false, the program name stays 0 and [created_] stays false.
    Moreover [Create] stops at the first failing stage: its last OpenGL calls
    fetch that stage's info log (followed, for the link stage, by the release
    of the two shaders), no later stage is attempted, and the caller's string
    receives that log. *)
Theorem Create_failure_aborts (drv : Driver) (sp : ShaderProgram)
  (err0 : string) (g : GL)
  (Hreach : reachable drv sp) (Hnew : created_ sp = false)
  (Hfail : compile_status drv VERTEX (vertex_shader_src_ sp) = false \/
           compile_status drv FRAGMENT (fragment_shader_src_ sp) = false \/
           link_status drv (S (gl_next g)) (S (S (gl_next g))) = false) :
  let v := S (gl_next g) in let f := S v in let p := S f in
  let '(b, sp', e', g') := Create drv sp (Some err0) g in
  b = false /\ shader_program_id_ sp' = 0 /\ created_ sp' = false /\
  (compile_status drv VERTEX (vertex_shader_src_ sp) = false ->
    e' = Some (shader_info_log drv v) /\
    gl_trace g' = gl_trace g ++ compile_calls VERTEX v (vertex_shader_src_ sp)
                    ++ [GlGetShaderInfoLog v]) /\
  (compile_status drv VERTEX (vertex_shader_src_ sp) = true ->
   compile_status drv FRAGMENT (fragment_shader_src_ sp) = false ->
    e' = Some (shader_info_log drv f) /\
    gl_trace g' = gl_trace g ++ compile_calls VERTEX v (vertex_shader_src_ sp)
                    ++ compile_calls FRAGMENT f (fragment_shader_src_ sp)
                    ++ [GlGetShaderInfoLog f]) /\
  (compile_status drv VERTEX (vertex_shader_src_ sp) = true ->
   compile_status drv FRAGMENT (fragment_shader_src_ sp) = true ->
   link_status drv v f = false ->
    e' = Some (program_info_log drv p) /\
    gl_trace g' = gl_trace g ++ compile_calls VERTEX v (vertex_shader_src_ sp)
                    ++ compile_calls FRAGMENT f (fragment_shader_src_ sp)
                    ++ link_calls p v f
                    ++ [GlGetProgramInfoLog p; GlDeleteShader v;
                        GlDeleteShader f]).
Proof.
  pose proof (reachable_inv drv sp Hreach) as Hinv.
  unfold inv in Hinv; rewrite Hnew in Hinv.
  assert (Hid : shader_program_id_ sp = 0)
    by (destruct (Nat.eq_dec (shader_program_id_ sp) 0) as [E|E];
        [exact E | discriminate (proj2 Hinv E)]).
  destruct sp as [vs fs vsh fsh pid c]; simpl in *; subst c pid.
  destruct g as [n t]; simpl in *.
  unfold compile_calls, link_calls.
  revert Hfail; unfold_create; split_stages drv; intros Hfail;
    repeat rewrite <- app_assoc; simpl;
    repeat split; intros; auto 10; try discriminate;
    destruct Hfail as [H|[H|H]]; discriminate.
Qed.

Lemma Create_failure_aborts_witness :
  reachable failing_driver ShaderProgram_new /\
  fst (fst (fst (Create failing_driver ShaderProgram_new
                   (Some EmptyString) gl_init))) = false /\
  shader_program_id_
    (snd (fst (fst (Create failing_driver ShaderProgram_new
                      (Some EmptyString) gl_init)))) = 0.
Proof.
  assert (Hr : reachable failing_driver ShaderProgram_new)
    by (exists [], gl_init, gl_init; reflexivity).
  split; [exact Hr|].
  pose proof (Create_failure_aborts failing_driver ShaderProgram_new
    EmptyString gl_init Hr eq_refl (or_introl eq_refl)) as H.
  revert H; cbv zeta.
  destruct (Create failing_driver ShaderProgram_new (Some EmptyString) gl_init)
    as [[[b sp'] e'] g'].
  simpl; intros (Hb & Hid & _); split; assumption.
Defined.

(** Claim C2, counterexample: when the vertex shader does not compile,
    [Create] has created shader 1 with [glCreateShader] and returns without
    ever calling [glDeleteShader] on it. *)
Lemma Create_compile_failure_keeps_shader :
  let g' := snd (Create failing_driver ShaderProgram_new (Some EmptyString)
                   gl_init) in
  In (GlCreateShader VERTEX 1) (gl_trace g') /\
  ~ In (GlDeleteShader 1) (gl_trace g').
Proof.
  cbv zeta; simpl. split.
  - left; reflexivity.
  - intros H;
    repeat match type of H with _ \/ _ => destruct H as [H|H] end;
    try discriminate; contradiction.
Qed.

(** Claim C2, as amended: release of the shader stages happens in
    [LinkProgram]. When both stages compile (link failure or success), every
    shader [Create] made is passed to [glDeleteShader] before [Create]
    returns; when a stage fails to compile, [Create] returns before the
    release step and deletes no shader. *)
Theorem Create_releases_after_linking (drv : Driver) (sp : ShaderProgram)
  (err : option string) (g : GL) (Hnew : created_ sp = false) :
  exists new,
    gl_trace (snd (Create drv sp err g)) = gl_trace g ++ new /\
    (compile_status drv VERTEX (vertex_shader_src_ sp) = true ->
     compile_status drv FRAGMENT (fragment_shader_src_ sp) = true ->
     forall ty id, In (GlCreateShader ty id) new -> In (GlDeleteShader id) new) /\
    (compile_status drv VERTEX (vertex_shader_src_ sp) = false \/
     compile_status drv FRAGMENT (fragment_shader_src_ sp) = false ->
     (exists ty id, In (GlCreateShader ty id) new) /\
     forall id, ~ In (GlDeleteShader id) new).
Proof.
  destruct sp as [vs fs vsh fsh pid c]; simpl in *; subst c.
  destruct g as [n t].
  unfold Create; simpl; unfold_create.
  split_stages drv; destruct err; simpl;
    eexists; (split; [repeat rewrite <- app_assoc; reflexivity|]);
    (split;
    [ intros Hv Hf;
      first
        [ discriminate
        | intros ty id Hin; simpl in Hin; simpl;
          repeat match type of Hin with _ \/ _ => destruct Hin as [Hin|Hin] end;
          try contradiction; try discriminate;
          injection Hin; intros; subst;
          repeat first [left; reflexivity | right] ]
    | intros Hv;
      first
        [ destruct Hv as [Hv|Hv]; discriminate
        | split; [do 2 eexists; left; reflexivity|];
          intros id Hin; simpl in Hin;
          repeat match type of Hin with _ \/ _ => destruct Hin as [Hin|Hin] end;
          try discriminate; contradiction ] ]).
Qed.

Lemma Create_releases_after_linking_witness :
  exists new,
    gl_trace (snd (Create link_failing_driver ShaderProgram_new None gl_init))
      = gl_trace gl_init ++ new /\
    (compile_status link_failing_driver VERTEX EmptyString = true ->
     compile_status link_failing_driver FRAGMENT EmptyString = true ->
     forall ty id, In (GlCreateShader ty id) new -> In (GlDeleteShader id) new) /\
    (compile_status link_failing_driver VERTEX EmptyString = false \/
     compile_status link_failing_driver FRAGMENT EmptyString = false ->
     (exists ty id, In (GlCreateShader ty id) new) /\
     forall id, ~ In (GlDeleteShader id) new).
Proof.
  apply (Create_releases_after_linking link_failing_driver ShaderProgram_new
    None gl_init); reflexivity.
Defined.

(** * Further properties of the code *)

Open Scope R_scope.

(** ** Vectors and matrices *)

(** [Multiply4x4Matrices] composes the maps: [(x * y) v = x (y v)]. *)
Theorem Multiply4x4Matrices_apply (x y : Matrix4f) (v : Vector4f) (i : nat) :
  MultiplyVectorAndMatrix (Multiply4x4Matrices x y) v i =
  MultiplyVectorAndMatrix x (MultiplyVectorAndMatrix y v) i.
Proof.
  unfold MultiplyVectorAndMatrix, Multiply4x4Matrices; ring.
Qed.

(** [Multiply4x4Matrices] is associative. *)
Theorem Multiply4x4Matrices_assoc (x y z : Matrix4f) (i j : nat) :
  Multiply4x4Matrices x (Multiply4x4Matrices y z) i j =
  Multiply4x4Matrices (Multiply4x4Matrices x y) z i j.
Proof. unfold Multiply4x4Matrices; ring. Qed.

(** The identity matrix is neutral for [Multiply4x4Matrices] on both sides
    and for [MultiplyVectorAndMatrix], on the indices 0..3 of a 4x4 matrix. *)
Theorem Identity4f_neutral (x : Matrix4f) (v : Vector4f) (i j : nat)
  (Hi : (i < 4)%nat) (Hj : (j < 4)%nat) :
  Multiply4x4Matrices x Identity4f i j = x i j /\
  Multiply4x4Matrices Identity4f x i j = x i j /\
  MultiplyVectorAndMatrix Identity4f v i = v i.
Proof.
  unfold Multiply4x4Matrices, MultiplyVectorAndMatrix, Identity4f,
    matrix4f_of_rows.
  destruct i as [|[|[|[|i]]]]; try lia;
  destruct j as [|[|[|[|j]]]]; try lia; simpl; repeat split; ring.
Qed.

Lemma Identity4f_neutral_witness :
  Multiply4x4Matrices (fun i j => INR (i + j)) Identity4f 2%nat 3%nat
    = INR (2 + 3) /\
  Multiply4x4Matrices Identity4f (fun i j => INR (i + j)) 2%nat 3%nat
    = INR (2 + 3) /\
  MultiplyVectorAndMatrix Identity4f (fun i => INR i) 2%nat = INR 2.
Proof. apply Identity4f_neutral; lia. Defined.

(** [MultiplyVectorAndMatrix] distributes over [Add4dPoints]. *)
Theorem MultiplyVectorAndMatrix_Add4dPoints (x : Matrix4f) (u v : Vector4f)
  (i : nat) :
  MultiplyVectorAndMatrix x (Add4dPoints u v) i =
  Add4dPoints (MultiplyVectorAndMatrix x u) (MultiplyVectorAndMatrix x v) i.
Proof. unfold MultiplyVectorAndMatrix, Add4dPoints; ring. Qed.

(** The sum of squares of a vector's components is zero only at the zero
    vector. *)
Lemma dot_self_pos (x : Vector3f) :
  x <> Zero3 -> 0 < ComputeDotProduct x x.
Proof.
  intros Hx. destruct x as [a b c]; unfold ComputeDotProduct; simpl.
  destruct (Rlt_or_le 0 (a * a + b * b + c * c)) as [H|H]; [exact H|].
  exfalso; apply Hx; unfold Zero3.
  assert (a = 0) by nra. assert (b = 0) by nra. assert (c = 0) by nra.
  subst; reflexivity.
Qed.

(** [ComputeDotProduct y y] is never negative, and is zero exactly for the
    zero vector. *)
Theorem ComputeDotProduct_self (y : Vector3f) :
  0 <= ComputeDotProduct y y /\ (ComputeDotProduct y y = 0 <-> y = Zero3).
Proof.
  split.
  - destruct y as [a b c]; unfold ComputeDotProduct; simpl; nra.
  - split.
    + intros H0. destruct y as [a b c]; unfold ComputeDotProduct in H0;
        simpl in H0.
      assert (a = 0) by nra. assert (b = 0) by nra. assert (c = 0) by nra.
      subst; reflexivity.
    + intros ->; unfold ComputeDotProduct, Zero3; simpl; ring.
Qed.

(** [ComputeCrossProduct] is anti-commutative and vanishes on equal
    arguments. *)
Theorem ComputeCrossProduct_anticomm (x y : Vector3f) :
  ComputeCrossProduct y x = opp_v3 (ComputeCrossProduct x y) /\
  ComputeCrossProduct x x = Zero3.
Proof.
  destruct x as [a b c], y as [d e f].
  unfold ComputeCrossProduct, opp_v3, Zero3; simpl.
  split; f_equal; ring.
Qed.

(** Lagrange's identity: [|x × y|^2 = |x|^2 |y|^2 - (x · y)^2]. *)
Theorem ComputeCrossProduct_lagrange (x y : Vector3f) :
  let c := ComputeCrossProduct x y in
  ComputeDotProduct c c =
  ComputeDotProduct x x * ComputeDotProduct y y - ComputeDotProduct x y ^ 2.
Proof.
  destruct x as [a b c], y as [d e f].
  unfold ComputeCrossProduct, ComputeDotProduct; simpl; ring.
Qed.

(** ** Angle between two vectors *)

Lemma norm_pos (x : Vector3f) : x <> Zero3 -> 0 < norm x.
Proof. intros Hx; apply sqrt_lt_R0, dot_self_pos, Hx. Qed.

Lemma normalized_dot (x y : Vector3f) :
  x <> Zero3 -> y <> Zero3 ->
  ComputeDotProduct (normalized x) (normalized y) =
  ComputeDotProduct x y / (norm x * norm y).
Proof.
  intros Hx Hy. pose proof (norm_pos x Hx). pose proof (norm_pos y Hy).
  unfold normalized.
  destruct (Rlt_dec 0 (norm x)); [|lra]. destruct (Rlt_dec 0 (norm y)); [|lra].
  unfold ComputeDotProduct; simpl; field; lra.
Qed.

Lemma UnitX_nonzero : UnitX <> Zero3.
Proof. unfold UnitX, Zero3; intros H; injection H; lra. Qed.

Lemma UnitY_nonzero : UnitY <> Zero3.
Proof. unfold UnitY, Zero3; intros H; injection H; lra. Qed.

(** [CalculateAngleBetweenTwoVectors] is symmetric in its arguments. *)
Theorem CalculateAngleBetweenTwoVectors_sym (x y : Vector3f) :
  CalculateAngleBetweenTwoVectors x y = CalculateAngleBetweenTwoVectors y x.
Proof.
  unfold CalculateAngleBetweenTwoVectors, ComputeDotProduct.
  f_equal; ring.
Qed.

(** Orthogonal non-zero vectors make the angle [PI/2]. *)
Theorem CalculateAngleBetweenTwoVectors_orthogonal (x y : Vector3f)
  (Hx : x <> Zero3) (Hy : y <> Zero3) (Horth : ComputeDotProduct x y = 0) :
  CalculateAngleBetweenTwoVectors x y = PI / 2.
Proof.
  unfold CalculateAngleBetweenTwoVectors; cbv zeta.
  rewrite normalized_dot, Horth by assumption.
  unfold Rdiv; rewrite Rmult_0_l. apply acos_0.
Qed.

Lemma CalculateAngleBetweenTwoVectors_orthogonal_witness :
  CalculateAngleBetweenTwoVectors UnitX UnitY = PI / 2.
Proof.
  apply CalculateAngleBetweenTwoVectors_orthogonal;
    [exact UnitX_nonzero | exact UnitY_nonzero |].
  unfold ComputeDotProduct, UnitX, UnitY; simpl; ring.
Defined.

(** ** Perspective projection *)

(** The projection puts [-z] into the homogeneous coordinate, and after the
    perspective divide it sends depth [-near] to -1 and [-far] to 1. *)
Theorem perspective_depth_range (fov aspect near far x y : R)
  (Hnf : near <> far) (Hn : near <> 0) (Hf : far <> 0) :
  let clip z := MultiplyVectorAndMatrix
                  (ComputePerspectiveProjectionMatrix fov aspect near far)
                  (homogeneous (V3 x y z)) in
  (forall z, clip z 3%nat = - z) /\
  clip (- near) 2%nat / clip (- near) 3%nat = -1 /\
  clip (- far) 2%nat / clip (- far) 3%nat = 1.
Proof.
  cbv zeta. unfold MultiplyVectorAndMatrix, ComputePerspectiveProjectionMatrix,
    matrix4f_of_rows, homogeneous; simpl.
  assert (far - near <> 0) by lra.
  split; [intros z; ring|].
  split; field; lra.
Qed.

Lemma perspective_depth_range_witness :
  let clip z := MultiplyVectorAndMatrix
                  (ComputePerspectiveProjectionMatrix (PI / 2) 1 1 10)
                  (homogeneous (V3 0 0 z)) in
  (forall z, clip z 3%nat = - z) /\
  clip (- 1) 2%nat / clip (- 1) 3%nat = -1 /\
  clip (- 10) 2%nat / clip (- 10) 3%nat = 1.
Proof. apply perspective_depth_range; lra. Defined.

(** ** Model *)

Lemma model_exec_keeps (m : Model) (op : ModelOp) :
  vertices_ (model_exec m op) = vertices_ m /\
  indices_ (model_exec m op) = indices_ m /\
  vertex_buffer_object_id_ (model_exec m op) = vertex_buffer_object_id_ m /\
  vertex_array_object_id_ (model_exec m op) = vertex_array_object_id_ m /\
  element_buffer_object_id_ (model_exec m op) = element_buffer_object_id_ m.
Proof. destruct op; repeat split. Qed.

Lemma model_run_keeps (ops : list ModelOp) : forall m,
  let m' := model_run m ops in
  vertices_ m' = vertices_ m /\ indices_ m' = indices_ m /\
  vertex_buffer_object_id_ m' = vertex_buffer_object_id_ m /\
  vertex_array_object_id_ m' = vertex_array_object_id_ m /\
  element_buffer_object_id_ m' = element_buffer_object_id_ m.
Proof.
  induction ops as [|op ops IH]; intros m; cbv zeta; simpl; [repeat split|].
  destruct (IH (model_exec m op)) as (H1 & H2 & H3 & H4 & H5).
  destruct (model_exec_keeps m op) as (K1 & K2 & K3 & K4 & K5).
  repeat split; congruence.
Qed.

(** A [Model] made by either constructor keeps the constructor's vertices
    and indices (none for the three-argument one) and reports buffer ids 0
    after any sequence of setters, pointer writes, [SetVerticesIntoGpu] and
    [Draw]: no buffer is ever created. *)
Theorem Model_buffers_never_set (o p : Vector3f) (v : list (list R))
  (idx : list nat) (ops : list ModelOp) :
  let m1 := model_run (Model_new o p v) ops in
  let m2 := model_run (Model_new_indexed o p v idx) ops in
  vertices_ m1 = v /\ indices_ m1 = [] /\
  vertex_buffer_object_id_ m1 = 0%nat /\ vertex_array_object_id_ m1 = 0%nat /\
  element_buffer_object_id_ m1 = 0%nat /\
  vertices_ m2 = v /\ indices_ m2 = idx /\
  vertex_buffer_object_id_ m2 = 0%nat /\ vertex_array_object_id_ m2 = 0%nat /\
  element_buffer_object_id_ m2 = 0%nat.
Proof.
  cbv zeta.
  destruct (model_run_keeps ops (Model_new o p v)) as (A1 & A2 & A3 & A4 & A5).
  destruct (model_run_keeps ops (Model_new_indexed o p v idx))
    as (B1 & B2 & B3 & B4 & B5).
  rewrite A1, A2, A3, A4, A5, B1, B2, B3, B4, B5.
  repeat split.
Qed.

(** ** Shader program: composition of the calls *)

Open Scope nat_scope.

(** The outcome of [Create] on an object not yet created. *)
Lemma Create_fresh_outcome (drv : Driver) (sp : ShaderProgram) err g
  b sp' e' g' :
  created_ sp = false ->
  Create drv sp err g = (b, sp', e', g') ->
  b = compile_status drv VERTEX (vertex_shader_src_ sp)
      && compile_status drv FRAGMENT (fragment_shader_src_ sp)
      && link_status drv (S (gl_next g)) (S (S (gl_next g))) /\
  created_ sp' = b /\
  vertex_shader_src_ sp' = vertex_shader_src_ sp /\
  fragment_shader_src_ sp' = fragment_shader_src_ sp /\
  (b = true -> shader_program_id_ sp' = S (S (S (gl_next g))) /\ e' = err).
Proof.
  intros Hnew Hcreate.
  destruct sp as [vs fs vsh fsh pid c]; simpl in *; subst c.
  destruct g as [n t].
  unfold Create in Hcreate; simpl in Hcreate; unfold_create.
  revert Hcreate; split_stages drv; intros Hcreate;
    inversion Hcreate; subst; clear Hcreate; simpl;
    repeat split; auto; discriminate.
Qed.

(** On an object not yet created, [Create] succeeds exactly when the vertex
    source compiles, the fragment source compiles and the two link; it then
    sets [created_] and stores the fresh program name, and leaves the
    caller's string and the loaded sources as they were. *)
Theorem Create_success_iff (drv : Driver) (sp : ShaderProgram) err g
  b sp' e' g' (Hnew : created_ sp = false)
  (Hcreate : Create drv sp err g = (b, sp', e', g')) :
  b = compile_status drv VERTEX (vertex_shader_src_ sp)
      && compile_status drv FRAGMENT (fragment_shader_src_ sp)
      && link_status drv (S (gl_next g)) (S (S (gl_next g))) /\
  created_ sp' = b /\
  vertex_shader_src_ sp' = vertex_shader_src_ sp /\
  fragment_shader_src_ sp' = fragment_shader_src_ sp /\
  (b = true -> shader_program_id_ sp' <> 0 /\ e' = err).
Proof.
  destruct (Create_fresh_outcome drv sp err g b sp' e' g' Hnew Hcreate)
    as (H1 & H2 & H3 & H4 & H5).
  split; [exact H1|]. split; [exact H2|]. split; [exact H3|].
  split; [exact H4|].
  intros Hb; destruct (H5 Hb) as [-> ->]; split; [discriminate | reflexivity].
Qed.

Lemma Create_success_iff_witness :
  let r := Create accepting_driver ShaderProgram_new None gl_init in
  fst (fst (fst r)) = true && true && true /\
  created_ (snd (fst (fst r))) = fst (fst (fst r)).
Proof.
  cbv zeta.
  destruct (Create_success_iff accepting_driver ShaderProgram_new None gl_init
    _ _ _ _ eq_refl eq_refl) as (H1 & H2 & _).
  split; assumption.
Defined.

(** When both stages compile but linking fails, [Create] has made a program
    object with [glCreateProgram] that no call deletes: [Create] never calls
    [glDeleteProgram], the object keeps program id 0, and so its destructor
    makes no call either. *)
Theorem Create_link_failure_keeps_program (drv : Driver) (sp : ShaderProgram)
  err g sp' e' g' (Hnew : created_ sp = false)
  (Hv : compile_status drv VERTEX (vertex_shader_src_ sp) = true)
  (Hf : compile_status drv FRAGMENT (fragment_shader_src_ sp) = true)
  (Hcreate : Create drv sp err g = (false, sp', e', g')) :
  exists new,
    gl_trace g' = gl_trace g ++ new /\
    In (GlCreateProgram (S (S (S (gl_next g))))) new /\
    (forall q, ~ In (GlDeleteProgram q) new) /\
    shader_program_id_ sp' = 0 /\ Destroy sp' g' = g'.
Proof.
  destruct sp as [vs fs vsh fsh pid c]; simpl in *; subst c.
  destruct g as [n t].
  unfold Create in Hcreate; simpl in Hcreate; unfold_create.
  rewrite Hv in Hcreate; simpl in Hcreate.
  rewrite Hf in Hcreate; simpl in Hcreate.
  destruct (link_status drv (S n) (S (S n))); simpl in Hcreate;
    inversion Hcreate; subst; clear Hcreate.
  eexists; split; [repeat rewrite <- app_assoc; reflexivity|].
  split; [simpl; tauto|].
  split; [|split; reflexivity].
  intros q Hin; simpl in Hin;
    repeat match type of Hin with _ \/ _ => destruct Hin as [Hin|Hin] end;
    try discriminate; contradiction.
Qed.

Lemma Create_link_failure_keeps_program_witness :
  exists new,
    gl_trace (snd (Create link_failing_driver ShaderProgram_new None gl_init))
      = gl_trace gl_init ++ new /\
    In (GlCreateProgram 3) new /\
    (forall q, ~ In (GlDeleteProgram q) new) /\
    shader_program_id_
      (snd (fst (fst (Create link_failing_driver ShaderProgram_new None
                        gl_init)))) = 0 /\
    Destroy (snd (fst (fst (Create link_failing_driver ShaderProgram_new None
                              gl_init))))
      (snd (Create link_failing_driver ShaderProgram_new None gl_init))
    = snd (Create link_failing_driver ShaderProgram_new None gl_init).
Proof.
  exact (Create_link_failure_keeps_program link_failing_driver
    ShaderProgram_new None gl_init _ _ _ eq_refl eq_refl eq_refl eq_refl).
Defined.

(** A failed [Create] can be retried: after loading new sources, the next
    [Create] runs all three stages again and succeeds exactly when the new
    sources compile and link. *)
Theorem Create_retry_after_failure (drv : Driver) (sp : ShaderProgram)
  err g sp1 e1 g1 (s t : string) err'
  (Hnew : created_ sp = false)
  (Hfail : Create drv sp err g = (false, sp1, e1, g1)) :
  let sp2 := snd (LoadFragmentShaderFromString
                    (snd (LoadVertexShaderFromString sp1 s)) t) in
  fst (fst (fst (Create drv sp2 err' g1))) =
  compile_status drv VERTEX s && compile_status drv FRAGMENT t
  && link_status drv (S (gl_next g1)) (S (S (gl_next g1))).
Proof.
  cbv zeta.
  destruct (Create_fresh_outcome drv sp err g false sp1 e1 g1 Hnew Hfail)
    as (_ & H2 & _).
  set (sp2 := snd (LoadFragmentShaderFromString
                    (snd (LoadVertexShaderFromString sp1 s)) t)).
  assert (H2' : created_ sp2 = false) by exact H2.
  destruct (Create drv sp2 err' g1) as [[[b sp3] e3] g3] eqn:E.
  destruct (Create_fresh_outcome drv sp2 err' g1 b sp3 e3 g3 H2' E) as (R & _).
  exact R.
Qed.

Lemma Create_retry_after_failure_witness :
  fst (fst (fst (Create failing_driver
    (snd (LoadFragmentShaderFromString
            (snd (LoadVertexShaderFromString
                    (snd (fst (fst (Create failing_driver ShaderProgram_new
                                      None gl_init)))) "x")) "y"))
    None (snd (Create failing_driver ShaderProgram_new None gl_init)))))
  = false && false && false.
Proof.
  exact (Create_retry_after_failure failing_driver ShaderProgram_new None
    gl_init _ _ _ "x" "y" None eq_refl eq_refl).
Defined.

Lemma exec_op_created (drv : Driver) sp g op :
  created_ sp = true ->
  created_ (fst (exec_op drv sp g op)) = true /\
  shader_program_id_ (fst (exec_op drv sp g op)) = shader_program_id_ sp /\
  (snd (exec_op drv sp g op) = g \/
   snd (exec_op drv sp g op) = emit (GlUseProgram (shader_program_id_ sp)) g).
Proof.
  intros Hc. destruct op; simpl.
  - repeat split; auto.
  - repeat split; auto.
  - unfold LoadVertexShaderFromFile; destruct (LoadShaderFromFile drv path);
      repeat split; auto.
  - unfold LoadFragmentShaderFromFile; destruct (LoadShaderFromFile drv path);
      repeat split; auto.
  - rewrite (Create_idempotent drv sp error_info_log g Hc); simpl;
      repeat split; auto.
  - unfold Use; rewrite Hc; simpl; repeat split; auto.
Qed.

(** Once [Create] has succeeded, no sequence of loads, [Create] and [Use]
    changes [created_] or the program id, no new name is generated, and the
    only OpenGL calls are [glUseProgram] on that program. *)
Theorem created_program_frozen (drv : Driver) (ops : list Op) :
  forall sp g, created_ sp = true ->
  created_ (fst (run drv sp g ops)) = true /\
  shader_program_id_ (fst (run drv sp g ops)) = shader_program_id_ sp /\
  gl_next (snd (run drv sp g ops)) = gl_next g /\
  exists k, gl_trace (snd (run drv sp g ops)) =
            gl_trace g ++ repeat (GlUseProgram (shader_program_id_ sp)) k.
Proof.
  induction ops as [|op ops IH]; intros sp g Hc; simpl.
  - repeat split; auto. exists 0; simpl; rewrite app_nil_r; reflexivity.
  - destruct (exec_op_created drv sp g op Hc) as (C1 & C2 & C3).
    destruct (exec_op drv sp g op) as [sp1 g1]; simpl in *.
    destruct (IH sp1 g1 C1) as (D1 & D2 & D3 & k & D4).
    rewrite C2 in D2, D4.
    split; [exact D1|]. split; [exact D2|].
    destruct C3 as [-> | ->].
    + split; [exact D3|]. exists k; exact D4.
    + split; [exact D3|]. exists (S k). rewrite D4; simpl.
      rewrite <- app_assoc; reflexivity.
Qed.

Lemma created_program_frozen_witness :
  created_ (fst (run failing_driver (set_created_ ShaderProgram_new true)
                   gl_init [OpUse; OpCreate None])) = true.
Proof.
  exact (proj1 (created_program_frozen failing_driver [OpUse; OpCreate None]
    (set_created_ ShaderProgram_new true) gl_init eq_refl)).
Defined.

(** On an object reached through the public calls, [Use] after a
    successful [Create] activates a non-zero program name, never 0. *)
Theorem Use_activates_linked_program (drv : Driver) (sp : ShaderProgram) g
  (Hreach : reachable drv sp) (Hc : created_ sp = true) :
  Use sp g = (true, emit (GlUseProgram (shader_program_id_ sp)) g) /\
  shader_program_id_ sp <> 0.
Proof.
  pose proof (reachable_inv drv sp Hreach) as Hinv.
  unfold Use; rewrite Hc; split; [reflexivity|].
  apply (proj1 Hinv); exact Hc.
Qed.

Lemma Use_activates_linked_program_witness :
  let sp := fst (run accepting_driver ShaderProgram_new gl_init
                   [OpCreate None]) in
  Use sp gl_init = (true, emit (GlUseProgram (shader_program_id_ sp)) gl_init)
  /\ shader_program_id_ sp <> 0.
Proof.
  apply (Use_activates_linked_program accepting_driver); [|reflexivity].
  exists [OpCreate None], gl_init, (snd (run accepting_driver
    ShaderProgram_new gl_init [OpCreate None])).
  reflexivity.
Defined.

(** The main program's [CreateShaderProgram] returns false on [nullptr].
    On an object reached through the public calls, it returns true exactly
    when the object ends up created. It returns true for an object already
    created, and for one not yet created exactly when the main program's two
    sources compile and link. *)
Theorem Main_CreateShaderProgram_result (drv : Driver) (sp : ShaderProgram)
  (g : GL) (Hreach : reachable drv sp) :
  Main.CreateShaderProgram drv None g = (false, None, g) /\
  match Main.CreateShaderProgram drv (Some sp) g with
  | (b, Some sp', _) =>
      created_ sp' = b /\
      (created_ sp = true -> b = true) /\
      (created_ sp = false ->
       b = compile_status drv VERTEX Main.vertex_shader_src
           && compile_status drv FRAGMENT Main.fragment_shader_src
           && link_status drv (S (gl_next g)) (S (S (gl_next g))))
  | _ => False
  end.
Proof.
  split; [reflexivity|].
  pose proof (reachable_inv drv sp Hreach) as Hinv.
  unfold Main.CreateShaderProgram; simpl.
  set (sp2 := set_fragment_shader_src_
                (set_vertex_shader_src_ sp Main.vertex_shader_src)
                Main.fragment_shader_src).
  assert (Hinv2 : inv sp2) by exact Hinv.
  assert (Hc2 : created_ sp2 = created_ sp) by reflexivity.
  pose proof (Create_inv drv sp2 (Some EmptyString) g Hinv2) as Hinv3.
  destruct (Create drv sp2 (Some EmptyString) g) as [[[b3 sp3] e3] g3] eqn:E.
  simpl in Hinv3. unfold inv in Hinv3.
  assert (Hres : created_ sp3 = negb (shader_program_id_ sp3 =? 0)).
  { destruct (shader_program_id_ sp3 =? 0) eqn:Z; simpl.
    - apply Nat.eqb_eq in Z. destruct (created_ sp3); [|reflexivity].
      exfalso; apply (proj1 Hinv3 eq_refl); exact Z.
    - apply Nat.eqb_neq in Z. apply (proj2 Hinv3); exact Z. }
  destruct (shader_program_id_ sp3 =? 0) eqn:Z; simpl in Hres;
    (split; [exact Hres|]); split; intros Hc.
  - rewrite <- Hc2 in Hc. rewrite (Create_idempotent drv sp2 _ g Hc) in E.
    inversion E; subst. congruence.
  - rewrite <- Hc2 in Hc.
    destruct (Create_fresh_outcome drv sp2 _ g b3 sp3 e3 g3 Hc E)
      as (R & R2 & _).
    rewrite <- Hres, R2, R; reflexivity.
  - reflexivity.
  - rewrite <- Hc2 in Hc.
    destruct (Create_fresh_outcome drv sp2 _ g b3 sp3 e3 g3 Hc E)
      as (R & R2 & _).
    rewrite <- Hres, R2, R; reflexivity.
Qed.

Lemma Main_CreateShaderProgram_result_witness :
  Main.CreateShaderProgram accepting_driver None gl_init = (false, None, gl_init)
  /\
  match Main.CreateShaderProgram accepting_driver (Some ShaderProgram_new) gl_init
  with
  | (b, Some sp', _) =>
      created_ sp' = b /\
      (created_ ShaderProgram_new = true -> b = true) /\
      (created_ ShaderProgram_new = false ->
       b = compile_status accepting_driver VERTEX Main.vertex_shader_src
           && compile_status accepting_driver FRAGMENT Main.fragment_shader_src
           && link_status accepting_driver (S (gl_next gl_init))
                (S (S (gl_next gl_init))))
  | _ => False
  end.
Proof.
  apply Main_CreateShaderProgram_result.
  exists [], gl_init, gl_init; reflexivity.
Defined.
